(** * A shallow embedding of the Nexx garage / gate accessory (homebridge-garage-nexx)

    Sources embedded:
    - [nxg200] : the [NXG200] accessory class (constructor, client adapter,
      reconciliation interval callback, [resetDeviceState],
      [setTargetDoorState], the characteristic getters);
    - [platform.ts] : [discoverDevices] (device filtering, category choice,
      restore / register / unregister).

    The door state machine [FSM] (module [nxg200_state_machine]) is imported
    by the accessory but is not part of the sources; its operations are
    modelled from the spec and are marked as such. *)

From Stdlib Require Import Bool ZArith String List.
Import ListNotations.
Open Scope Z_scope.
Open Scope string_scope.
Open Scope list_scope.

(** ** JavaScript values that reach the code untyped ([any] arguments,
    config options). *)
Inductive js_value : Type :=
| JUndefined
| JNull
| JBool (b : bool)
| JNumber (z : Z)
| JString (s : string)
| JMeta (DeviceType : option string) (ProductCode : string)
  (* an object literal [{ DeviceType, ProductCode }] *)
| JOtherObject (id : nat)
  (* any other object, told apart by identity *).

(** [x ?? y] *)
Definition nullish_coalesce (x y : js_value) : js_value :=
  match x with
  | JUndefined | JNull => y
  | _ => x
  end.

(** JavaScript truthiness, used by [!!] and [&&]. *)
Definition truthy (v : js_value) : bool :=
  match v with
  | JUndefined | JNull => false
  | JBool b => b
  | JNumber z => negb (Z.eqb z 0)
  | JString s => negb (String.eqb s "")
  | JMeta _ _ | JOtherObject _ => true
  end.

(** [v !== false] *)
Definition strict_neq_false (v : js_value) : bool :=
  match v with
  | JBool false => false
  | _ => true
  end.

(** ** Device records *)

(** [enum GarageDoorState { Open = 1, Closed = 2 }] *)
Definition GarageDoorState_Open : Z := 1.
Definition GarageDoorState_Closed : Z := 2.

(** [interface Device].  [DeviceStatus] is [None] when the remote record
    carries no status at all; any number other than 1 and 2 is a status the
    code does not recognise. *)
Record Device : Type := mkDevice {
  DeviceId : string;
  DeviceNickName : string;
  DeviceStatus : option Z;
  LastOperationTimestamp : string;
  ProductCode : string;
  DeviceType : option string
}.

(** [d.DeviceStatus === s] for a numeric enum member [s]. *)
Definition status_is (st : option Z) (s : Z) : bool :=
  match st with
  | Some z => Z.eqb z s
  | None => false
  end.

(** ** Characteristic values (HAP numbering) *)

Inductive CurrentDoorState : Type :=
| CDS_OPEN | CDS_CLOSED | CDS_OPENING | CDS_CLOSING | CDS_STOPPED.

Definition TargetDoorState_OPEN : Z := 0.
Definition TargetDoorState_CLOSED : Z := 1.

Section Accessory.

(** [new Date(s).getTime()]: the time value the JavaScript runtime derives
    from a timestamp string. *)
Context {time_value : Type} (getTime : string -> time_value).

(** ** The door state machine *)

Inductive fsm_state : Type := st_open | st_closed | st_stuck.

Definition fsm_state_eqb (a b : fsm_state) : bool :=
  match a, b with
  | st_open, st_open | st_closed, st_closed | st_stuck, st_stuck => true
  | _, _ => false
  end.

Record FSM : Type := mkFSM {
  state : fsm_state;
  transitioning : bool;
  lastTransition : time_value;
  fsm_deviceId : string
}.

Inductive direction : Type := dir_open | dir_close.

Definition target_of (dir : direction) : fsm_state :=
  match dir with dir_open => st_open | dir_close => st_closed end.

(** Modelled from the spec: [FSM.isTransitioning] of the missing module
    [nxg200_state_machine], a query of the transitioning flag. *)
Definition isTransitioning (m : FSM) : bool := transitioning m.

(** Modelled from the spec: [FSM.can] of the missing module
    [nxg200_state_machine]; true iff the state is not the target state and
    the machine is not transitioning. *)
Definition can (dir : direction) (m : FSM) : bool :=
  negb (fsm_state_eqb (state m) (target_of dir)) && negb (transitioning m).

(** Modelled from the spec: [FSM.resetOpen], [FSM.resetClosed] and
    [FSM.stuck] of the missing module [nxg200_state_machine]; each forces the
    state and clears the transitioning flag. *)
Definition set_state (s : fsm_state) (m : FSM) : FSM :=
  mkFSM s false (lastTransition m) (fsm_deviceId m).

Definition resetOpen (m : FSM) : FSM := set_state st_open m.
Definition resetClosed (m : FSM) : FSM := set_state st_closed m.
Definition stuck (m : FSM) : FSM := set_state st_stuck m.

(** Modelled from the spec: the synchronous part of [FSM.open] /
    [FSM.close] of the missing module [nxg200_state_machine], up to the
    awaited remote call: the transitioning flag is set. *)
Definition fsm_command_begin (m : FSM) : FSM :=
  mkFSM (state m) true (lastTransition m) (fsm_deviceId m).

(** [this.fsm.lastTransition = ...] *)
Definition set_lastTransition (t : time_value) (m : FSM) : FSM :=
  mkFSM (state m) (transitioning m) t (fsm_deviceId m).

(** ** The per-accessory client adapter *)

(** The outcome of a remote [open]/[close] call of the Nexx client. *)
Inductive cmd_result : Type :=
| CmdOk
| CmdErr (e : nat).

(** [const deviceMeta = { DeviceType: device.DeviceType, ProductCode: device.ProductCode }] *)
Definition deviceMeta (device : Device) : js_value :=
  JMeta (DeviceType device) (ProductCode device).

(** A call the adapter makes to the bound client method. *)
Record client_call : Type := mkCall {
  call_dir : direction;
  call_deviceId : string;
  call_devArg : js_value
}.

(** [clientAdapter.open] / [clientAdapter.close]:
    [async (deviceId, devArg?) => await boundOpen(deviceId, devArg ?? deviceMeta)].
    [base] stands for the bound method of the underlying client; the adapter
    returns the calls it made to it together with the awaited result.  An
    omitted argument is [JUndefined]. *)
Definition clientAdapter (base : direction -> string -> js_value -> cmd_result)
    (meta : js_value) (dir : direction) (deviceId : string) (devArg : js_value)
    : list client_call * cmd_result :=
  let arg := nullish_coalesce devArg meta in
  ([mkCall dir deviceId arg], base dir deviceId arg).

(** ** The accessory's observable world *)

Inductive event : Type :=
| EvPoll (deviceId : string)
    (* [platform.nexxApiClient.getDeviceState(this.fsm.deviceId)] *)
| EvReset (to : fsm_state) (status : option Z)
    (* the log line of a branch of [resetDeviceState] *)
| EvCommand (c : client_call)
    (* a call reaching the underlying client's [open] / [close] *)
| EvWarn (dir : direction)
    (* [log.warn(`Attempting to transition to ...`)] *)
| EvError (e : nat)
    (* [log.error(`Problem detected attempting to change ...`)] *)
| EvSetCurrent (v : CurrentDoorState)
    (* [service.setCharacteristic(CurrentDoorState, v)] *).

Record World : Type := mkWorld {
  fsm : FSM;
  current : CurrentDoorState;        (* the CurrentDoorState characteristic *)
  timers : list CurrentDoorState;    (* pending 12 s confirmation timers *)
  trace : list event;
  meta : js_value                    (* the adapter's [deviceMeta] *)
}.

Definition with_fsm (m : FSM) (w : World) : World :=
  mkWorld m (current w) (timers w) (trace w) (meta w).

Definition emit (e : event) (w : World) : World :=
  mkWorld (fsm w) (current w) (timers w) (trace w ++ [e]) (meta w).

(** [this.service.setCharacteristic(Characteristic.CurrentDoorState, v)] *)
Definition set_current (v : CurrentDoorState) (w : World) : World :=
  mkWorld (fsm w) v (timers w) (trace w ++ [EvSetCurrent v]) (meta w).

(** [setTimeout(() => this.service.setCharacteristic(CurrentDoorState, v), 12_000)] *)
Definition schedule (v : CurrentDoorState) (w : World) : World :=
  mkWorld (fsm w) (current w) (timers w ++ [v]) (trace w) (meta w).

(** ** [resetDeviceState] *)

Definition resetDeviceState (device : Device) (w : World) : World :=
  let w1 := with_fsm (set_lastTransition (getTime (LastOperationTimestamp device)) (fsm w)) w in
  if status_is (DeviceStatus device) GarageDoorState_Open then
    with_fsm (resetOpen (fsm w1)) (emit (EvReset st_open (DeviceStatus device)) w1)
  else if status_is (DeviceStatus device) GarageDoorState_Closed then
    with_fsm (resetClosed (fsm w1)) (emit (EvReset st_closed (DeviceStatus device)) w1)
  else
    with_fsm (stuck (fsm w1)) (emit (EvReset st_stuck (DeviceStatus device)) w1).

(** Modelled from the spec: [new FSM()] of the missing module
    [nxg200_state_machine]; its initial fields are not specified, so the
    constructor takes the fresh machine [m0] as given and sets [deviceId]. *)
Definition new_fsm (m0 : FSM) (device : Device) : FSM :=
  mkFSM (state m0) (transitioning m0) (lastTransition m0) (DeviceId device).

(** The state-relevant part of the [NXG200] constructor: the FSM is created,
    the adapter installed, and [this.resetDeviceState(device)] runs.
    [cur0] is the characteristic value the host holds for the service. *)
Definition constructor_setup (m0 : FSM) (cur0 : CurrentDoorState) (device : Device) : World :=
  resetDeviceState device (mkWorld (new_fsm m0 device) cur0 [] [] (deviceMeta device)).

(** ** The 60 s reconciliation callback of [setInterval]

    The callback awaits the poll, so a firing is split at that [await]:
    [reconcile_start] runs up to the call of [getDeviceState] and tells
    whether a poll was issued; [reconcile_resume] runs when the poll resolves
    with the record [d], against whatever the world is by then. *)
Definition reconcile_start (w : World) : World * bool :=
  if negb (isTransitioning (fsm w)) then (emit (EvPoll (fsm_deviceId (fsm w))) w, true)
  else (w, false).

Definition reconcile_resume (d : Device) (w : World) : World :=
  if fsm_state_eqb (state (fsm w)) st_open
     && negb (status_is (DeviceStatus d) GarageDoorState_Open) then
    resetDeviceState d w
  else if fsm_state_eqb (state (fsm w)) st_closed
     && negb (status_is (DeviceStatus d) GarageDoorState_Closed) then
    resetDeviceState d w
  else if fsm_state_eqb (state (fsm w)) st_stuck
     && (status_is (DeviceStatus d) GarageDoorState_Open
         || status_is (DeviceStatus d) GarageDoorState_Closed) then
    resetDeviceState d w
  else w.

(** A firing whose poll resolves with [d] before anything else runs. *)
Definition reconcile_firing (d : Device) (w : World) : World :=
  match reconcile_start w with
  | (w1, true) => reconcile_resume d w1
  | (w1, false) => w1
  end.

(** ** [setTargetDoorState] *)

(** [value === this.platform.Characteristic.TargetDoorState.OPEN] *)
Definition is_open_request (value : js_value) : bool :=
  match value with
  | JNumber z => Z.eqb z TargetDoorState_OPEN
  | _ => false
  end.

Definition request_dir (value : js_value) : direction :=
  if is_open_request value then dir_open else dir_close.

(** [OPENING] / [CLOSING], set before the command. *)
Definition moving_value (dir : direction) : CurrentDoorState :=
  match dir with dir_open => CDS_OPENING | dir_close => CDS_CLOSING end.

(** [OPEN] / [CLOSED], set by the confirmation timer. *)
Definition terminal_value (dir : direction) : CurrentDoorState :=
  match dir with dir_open => CDS_OPEN | dir_close => CDS_CLOSED end.

Definition emit_calls (calls : list client_call) (w : World) : World :=
  mkWorld (fsm w) (current w) (timers w) (trace w ++ map EvCommand calls) (meta w).

(** Modelled from the spec: the part of [FSM.open] / [FSM.close] of the
    missing module [nxg200_state_machine] that runs before its [await]: the
    transitioning flag is set and the adapter is called with the device id
    and no metadata.  [base] is the underlying client; the result is the
    value the awaited call settles with. *)
Definition fsm_command_issue (base : direction -> string -> js_value -> cmd_result)
    (dir : direction) (w : World) : World * cmd_result :=
  let m := fsm_command_begin (fsm w) in
  let (calls, r) := clientAdapter base (meta w) dir (fsm_deviceId m) JUndefined in
  (emit_calls calls (with_fsm m w), r).

(** Modelled from the spec: the part of [FSM.open] / [FSM.close] of the
    missing module [nxg200_state_machine] that runs once the remote call has
    settled: on success it returns; on failure the machine goes to [stuck]
    and the error is thrown to the caller. *)
Definition fsm_command_settle (r : cmd_result) (m : FSM) : FSM * option nat :=
  match r with
  | CmdOk => (m, None)
  | CmdErr e => (stuck m, Some e)
  end.

(** How the promise returned to the host settles. *)
Inductive outcome : Type :=
| Resolved (w : World)
| Rejected (e : nat) (w : World).

(** [try { body } catch (e) { handler }]: an error thrown by [body]
    ([inl (e, w)]) is handed to [handler]; the handler does not throw. *)
Definition try_catch (body : (nat * World) + World) (handler : nat -> World -> World)
    : outcome :=
  match body with
  | inr w => Resolved w
  | inl (e, w) => Resolved (handler e w)
  end.

(** The try block of [setTargetDoorState] up to [await this.fsm.open()] /
    [await this.fsm.close()].  It returns [None] when no command was issued
    (the [can] guard failed: the warning is logged and the timer scheduled)
    and [Some r] when the command is in flight and will settle with [r]. *)
Definition set_target_begin (base : direction -> string -> js_value -> cmd_result)
    (value : js_value) (w : World) : World * option cmd_result :=
  let dir := request_dir value in
  let w1 := set_current (moving_value dir) w in
  if can dir (fsm w1) then
    let (w2, r) := fsm_command_issue base dir w1 in (w2, Some r)
  else (schedule (terminal_value dir) (emit (EvWarn dir) w1), None).

(** The rest of the try block once the command has settled with [r]: the
    settle step of the FSM, then [setTimeout(..., 12_000)]. *)
Definition set_target_resume (value : js_value) (r : cmd_result) (w : World)
    : (nat * World) + World :=
  let dir := request_dir value in
  match fsm_command_settle r (fsm w) with
  | (m, None) => inr (schedule (terminal_value dir) (with_fsm m w))
  | (m, Some e) => inl (e, with_fsm m w)
  end.

(** The catch block: [log.error], [this.fsm.stuck()], [STOPPED]. *)
Definition set_target_catch (e : nat) (w : World) : World :=
  set_current CDS_STOPPED (with_fsm (stuck (fsm w)) (emit (EvError e) w)).

(** A whole [setTargetDoorState(value)] request whose command (if issued)
    settles before anything else runs. *)
Definition setTargetDoorState (base : direction -> string -> js_value -> cmd_result)
    (value : js_value) (w : World) : outcome :=
  match set_target_begin base value w with
  | (w1, None) => Resolved w1
  | (w1, Some r) => try_catch (set_target_resume value r w1) set_target_catch
  end.

(** The firing of the oldest pending confirmation timer: its callback only
    calls [setCharacteristic(CurrentDoorState, v)] (and logs). *)
Definition fire_timer (w : World) : World :=
  match timers w with
  | [] => w
  | v :: rest => set_current v (mkWorld (fsm w) (current w) rest (trace w) (meta w))
  end.

(** ** Characteristic getters *)

Definition getTargetDoorState (m : FSM) : Z :=
  match state m with
  | st_open => TargetDoorState_OPEN
  | st_closed => TargetDoorState_CLOSED
  | _ => TargetDoorState_CLOSED
  end.

Definition getCurrentDoorState (m : FSM) : CurrentDoorState :=
  match state m with
  | st_open => if isTransitioning m then CDS_OPENING else CDS_OPEN
  | st_closed => if isTransitioning m then CDS_CLOSING else CDS_CLOSED
  | _ => CDS_STOPPED
  end.

Definition getObstructionDetected (m : FSM) : bool :=
  fsm_state_eqb (state m) st_stuck.

End Accessory.

(** ** [NexxHomebridgePlatform.discoverDevices] *)

Module Platform.

Inductive Categories : Type :=
| OTHER | DOOR | GARAGE_DOOR_OPENER | WINDOW_COVERING.

(** [config.options]; [None] when the config carries no [options]. *)
Record Options : Type := mkOptions {
  includeGate : js_value;
  treatGateAsGarage : js_value
}.

(** [!!(this.config && this.config.options && this.config.options.includeGate)] *)
Definition read_includeGate (opts : option Options) : bool :=
  match opts with
  | None => false
  | Some o => truthy (includeGate o)
  end.

(** [(this.config && this.config.options && this.config.options.treatGateAsGarage) !== false] *)
Definition read_treatGateAsGarage (opts : option Options) : bool :=
  match opts with
  | None => strict_neq_false JUndefined
  | Some o => strict_neq_false (treatGateAsGarage o)
  end.

Definition opt_string_eqb (x : option string) (s : string) : bool :=
  match x with Some t => String.eqb t s | None => false end.

Definition isGarage (device : Device) : bool :=
  opt_string_eqb (DeviceType device) "NexxGarage"
  || existsb (String.eqb (ProductCode device)) ["NXG200"; "NXG300"].

Definition isGate (device : Device) : bool :=
  opt_string_eqb (DeviceType device) "NexxGate"
  || String.eqb (ProductCode device) "NXGT1".

Inductive action : Type :=
| Skip (device : Device)
| Restore (uuid : string) (device : Device)
| Register (uuid : string) (category : Categories) (device : Device)
| Unregister (uuid : string).

(** [const category = isGate && treatGateAsGarage ? GARAGE_DOOR_OPENER : GARAGE_DOOR_OPENER] *)
Definition category_of (gate treat : bool) : Categories :=
  if gate && treat then GARAGE_DOOR_OPENER else GARAGE_DOOR_OPENER.

(** The loop over the discovered devices; [generate] is
    [this.api.hap.uuid.generate], [cached] the UUIDs of the restored
    accessories.  Returns the actions taken and the discovered UUIDs. *)
Fixpoint register_loop (generate : string -> string) (cached : list string)
    (includeG treat : bool) (devices : list Device) : list action * list string :=
  match devices with
  | [] => ([], [])
  | device :: rest =>
      let (acts, ids) := register_loop generate cached includeG treat rest in
      if negb (isGarage device) && negb (includeG && isGate device) then
        (Skip device :: acts, ids)
      else
        let uuid := generate (DeviceId device) in
        let category := category_of (isGate device) treat in
        if existsb (String.eqb uuid) cached then
          (Restore uuid device :: acts, uuid :: ids)
        else
          (Register uuid category device :: acts, uuid :: ids)
  end.

Definition discoverDevices (generate : string -> string) (cached : list string)
    (opts : option Options) (devices : list Device) : list action :=
  let includeG := read_includeGate opts in
  let treat := read_treatGateAsGarage opts in
  let (acts, ids) := register_loop generate cached includeG treat devices in
  acts ++ map Unregister (filter (fun u => negb (existsb (String.eqb u) ids)) cached).

End Platform.

(** ** Properties *)

(** The claim's wording, used to state the reconciliation claims: local and
    remote disagree, and the terminal state the remote status dictates. *)
Definition spec_disagree (s : fsm_state) (st : option Z) : bool :=
  match s with
  | st_open => negb (status_is st GarageDoorState_Open)
  | st_closed => negb (status_is st GarageDoorState_Closed)
  | st_stuck => status_is st GarageDoorState_Open || status_is st GarageDoorState_Closed
  end.

Definition spec_reset_target (st : option Z) : fsm_state :=
  if status_is st GarageDoorState_Open then st_open
  else if status_is st GarageDoorState_Closed then st_closed
  else st_stuck.

Section Proofs.

Context {time_value : Type} (getTime : string -> time_value).

Lemma resetDeviceState_spec (d : Device) (w : World) :
  resetDeviceState getTime d w =
  mkWorld (mkFSM (spec_reset_target (DeviceStatus d)) false
             (getTime (LastOperationTimestamp d)) (fsm_deviceId (fsm w)))
          (current w) (timers w)
          (trace w ++ [EvReset (spec_reset_target (DeviceStatus d)) (DeviceStatus d)])
          (meta w).
Proof.
  destruct w as [[s tr lt id] c tm trc mt].
  unfold resetDeviceState, spec_reset_target.
  destruct (status_is (DeviceStatus d) GarageDoorState_Open);
    [reflexivity|].
  destruct (status_is (DeviceStatus d) GarageDoorState_Closed); reflexivity.
Qed.

Lemma reconcile_resume_spec (d : Device) (w : World) :
  reconcile_resume getTime d w =
  if spec_disagree (state (fsm w)) (DeviceStatus d) then resetDeviceState getTime d w else w.
Proof.
  unfold reconcile_resume, spec_disagree.
  destruct (state (fsm w)); simpl; reflexivity.
Qed.

Lemma reconcile_firing_idle (d : Device) (w : World)
    (H : isTransitioning (fsm w) = false) :
  reconcile_firing getTime d w =
    (if spec_disagree (state (fsm w)) (DeviceStatus d) then
       mkWorld (mkFSM (spec_reset_target (DeviceStatus d)) false
                  (getTime (LastOperationTimestamp d)) (fsm_deviceId (fsm w)))
               (current w) (timers w)
               (trace w ++ [EvPoll (fsm_deviceId (fsm w));
                            EvReset (spec_reset_target (DeviceStatus d)) (DeviceStatus d)])
               (meta w)
     else emit (EvPoll (fsm_deviceId (fsm w))) w).
Proof.
  unfold reconcile_firing, reconcile_start. rewrite H. simpl.
  rewrite reconcile_resume_spec. simpl.
  destruct (spec_disagree (state (fsm w)) (DeviceStatus d)); [|reflexivity].
  rewrite resetDeviceState_spec. simpl. rewrite <- app_assoc. reflexivity.
Qed.

Lemma constructor_setup_spec (m0 : FSM) (cur0 : CurrentDoorState) (d : Device) :
  constructor_setup getTime m0 cur0 d =
     mkWorld (mkFSM (spec_reset_target (DeviceStatus d)) false
                (getTime (LastOperationTimestamp d)) (DeviceId d))
             cur0 [] [EvReset (spec_reset_target (DeviceStatus d)) (DeviceStatus d)]
             (deviceMeta d).
Proof. unfold constructor_setup. rewrite resetDeviceState_spec. reflexivity. Qed.

Lemma set_target_timers
    (base : direction -> string -> js_value -> cmd_result) (value : js_value) (w : @World time_value) :
  match setTargetDoorState base value w with
  | Resolved w' =>
      (timers w' = timers w ++ [terminal_value (request_dir value)]
       /\ (can (request_dir value) (fsm w) = false
           \/ base (request_dir value) (fsm_deviceId (fsm w)) (meta w) = CmdOk))
      \/ (timers w' = timers w
          /\ can (request_dir value) (fsm w) = true
          /\ exists e, base (request_dir value) (fsm_deviceId (fsm w)) (meta w) = CmdErr e)
  | Rejected _ _ => False
  end.
Proof.
  unfold setTargetDoorState, set_target_begin.
  simpl (fsm (set_current _ _)).
  destruct (can (request_dir value) (fsm w)) eqn:Hc.
  - unfold fsm_command_issue, clientAdapter. simpl.
    destruct (base (request_dir value) (fsm_deviceId (fsm w)) (meta w)) as [|e] eqn:Hb;
      simpl.
    + left. split; [reflexivity|]. right. reflexivity.
    + right. split; [reflexivity|]. split; [reflexivity|]. exists e. reflexivity.
  - left. split; [reflexivity|]. left. reflexivity.
Qed.

(** C1 (amended): a firing that finds the machine transitioning issues no
    poll and applies no correction: it leaves the world untouched. *)
Theorem reconcile_skips_when_transitioning (d : Device) (w : World)
    (H : isTransitioning (fsm w) = true) :
  reconcile_start w = (w, false) /\ reconcile_firing getTime d w = w.
Proof.
  unfold reconcile_firing, reconcile_start. rewrite H. split; reflexivity.
Qed.

(** C2 (amended): a firing with the machine not transitioning polls once and
    then resets exactly when local and remote disagree; the reset goes to
    the state the remote status dictates, clears the transitioning flag and
    takes [lastTransition] from the record's timestamp.  The constructor's
    setup applies that same reset unconditionally. *)
Theorem reconcile_and_setup_reset (d : Device) (w : World) (m0 : FSM) (cur0 : CurrentDoorState)
    (H : isTransitioning (fsm w) = false) :
  reconcile_firing getTime d w =
    (if spec_disagree (state (fsm w)) (DeviceStatus d) then
       mkWorld (mkFSM (spec_reset_target (DeviceStatus d)) false
                  (getTime (LastOperationTimestamp d)) (fsm_deviceId (fsm w)))
               (current w) (timers w)
               (trace w ++ [EvPoll (fsm_deviceId (fsm w));
                            EvReset (spec_reset_target (DeviceStatus d)) (DeviceStatus d)])
               (meta w)
     else emit (EvPoll (fsm_deviceId (fsm w))) w)
  /\ constructor_setup getTime m0 cur0 d =
     mkWorld (mkFSM (spec_reset_target (DeviceStatus d)) false
                (getTime (LastOperationTimestamp d)) (DeviceId d))
             cur0 [] [EvReset (spec_reset_target (DeviceStatus d)) (DeviceStatus d)]
             (deviceMeta d).
Proof.
  split; [exact (reconcile_firing_idle d w H)|].
  apply constructor_setup_spec.
Qed.

(** C3 (amended): a request schedules exactly one confirmation timer, for
    the requested terminal value, unless its command was issued and failed;
    in particular the timer is also scheduled when the [can] guard is false
    and no command is issued.  A failed command schedules none. *)
Theorem confirmation_scheduled_unless_failed
    (base : direction -> string -> js_value -> cmd_result) (value : js_value) (w : @World time_value) :
  match setTargetDoorState base value w with
  | Resolved w' =>
      (timers w' = timers w ++ [terminal_value (request_dir value)]
       /\ (can (request_dir value) (fsm w) = false
           \/ base (request_dir value) (fsm_deviceId (fsm w)) (meta w) = CmdOk))
      \/ (timers w' = timers w
          /\ can (request_dir value) (fsm w) = true
          /\ exists e, base (request_dir value) (fsm_deviceId (fsm w)) (meta w) = CmdErr e)
  | Rejected _ _ => False
  end.
Proof. exact (set_target_timers base value w). Qed.

(** C4: every timer a request schedules carries the requested terminal
    value; when a confirmation timer fires it sets CurrentDoorState to its
    value whatever the machine is, leaves the machine as it is and does
    nothing else (no poll, no command). *)
Theorem confirmation_fires_unconditionally
    (base : direction -> string -> js_value -> cmd_result) (value : js_value) (w : @World time_value) :
  match setTargetDoorState base value w with
  | Resolved w' =>
      timers w' = timers w \/ timers w' = timers w ++ [terminal_value (request_dir value)]
  | Rejected _ _ => False
  end
  /\ forall (m : @FSM time_value) (c v : CurrentDoorState) (rest : list CurrentDoorState)
            (tr : list event) (mt : js_value),
       fire_timer (mkWorld m c (v :: rest) tr mt) = mkWorld m v rest (tr ++ [EvSetCurrent v]) mt.
Proof.
  split.
  - pose proof (set_target_timers base value w) as H.
    destruct (setTargetDoorState base value w) as [w'|]; [|contradiction].
    destruct H as [[H _]|[H _]]; [right|left]; exact H.
  - intros. reflexivity.
Qed.

(** C5: when the command is issued and rejects, the request resolves; the
    machine ends [stuck] and not transitioning, CurrentDoorState ends
    [STOPPED], the error is logged, the client was called exactly once and
    no timer is scheduled. *)
Theorem command_failure_absorbed
    (base : direction -> string -> js_value -> cmd_result) (value : js_value) (w : @World time_value) (e : nat)
    (Hcan : can (request_dir value) (fsm w) = true)
    (Herr : base (request_dir value) (fsm_deviceId (fsm w)) (meta w) = CmdErr e) :
  exists w',
    setTargetDoorState base value w = Resolved w'
    /\ state (fsm w') = st_stuck
    /\ isTransitioning (fsm w') = false
    /\ current w' = CDS_STOPPED
    /\ timers w' = timers w
    /\ trace w' = trace w ++ [EvSetCurrent (moving_value (request_dir value));
                              EvCommand (mkCall (request_dir value) (fsm_deviceId (fsm w)) (meta w));
                              EvError e;
                              EvSetCurrent CDS_STOPPED].
Proof.
  unfold setTargetDoorState, set_target_begin.
  simpl (fsm (set_current _ _)). rewrite Hcan.
  unfold fsm_command_issue, clientAdapter. simpl. rewrite Herr. simpl.
  eexists. split; [reflexivity|].
  repeat split. simpl. rewrite <- !app_assoc. reflexivity.
Qed.

(** C6: with the machine not transitioning and the remote status unchanged,
    a second firing leaves the machine as the first left it and only polls;
    when local and remote already agree, a firing only polls. *)
Theorem reconcile_idempotent (d : Device) (w : World)
    (H : isTransitioning (fsm w) = false) :
  fsm (reconcile_firing getTime d (reconcile_firing getTime d w)) = fsm (reconcile_firing getTime d w)
  /\ trace (reconcile_firing getTime d (reconcile_firing getTime d w))
       = trace (reconcile_firing getTime d w) ++ [EvPoll (fsm_deviceId (fsm w))]
  /\ (spec_disagree (state (fsm w)) (DeviceStatus d) = false ->
      fsm (reconcile_firing getTime d w) = fsm w
      /\ trace (reconcile_firing getTime d w) = trace w ++ [EvPoll (fsm_deviceId (fsm w))]).
Proof.
  pose proof (reconcile_firing_idle d w H) as H1.
  rewrite H1.
  destruct (spec_disagree (state (fsm w)) (DeviceStatus d)) eqn:Hd.
  - pose proof (reconcile_firing_idle d
      (mkWorld (mkFSM (spec_reset_target (DeviceStatus d)) false
                  (getTime (LastOperationTimestamp d)) (fsm_deviceId (fsm w)))
               (current w) (timers w)
               (trace w ++ [EvPoll (fsm_deviceId (fsm w));
                            EvReset (spec_reset_target (DeviceStatus d)) (DeviceStatus d)])
               (meta w)) eq_refl) as H2.
    rewrite H2. simpl.
    assert (Hagree : spec_disagree (spec_reset_target (DeviceStatus d)) (DeviceStatus d) = false).
    { unfold spec_reset_target.
      destruct (status_is (DeviceStatus d) GarageDoorState_Open) eqn:Ho;
        [simpl; rewrite Ho; reflexivity|].
      destruct (status_is (DeviceStatus d) GarageDoorState_Closed) eqn:Hc;
        simpl; rewrite ?Ho, ?Hc; reflexivity. }
    rewrite Hagree. simpl. split; [reflexivity|]. split; [reflexivity|].
    intro Hf. discriminate Hf.
  - pose proof (reconcile_firing_idle d (emit (EvPoll (fsm_deviceId (fsm w))) w) H) as H2.
    rewrite H2. simpl. rewrite Hd. simpl.
    split; [reflexivity|]. split; [reflexivity|]. intros _. split; reflexivity.
Qed.

End Proofs.

(** C7 (amended): the adapter makes exactly one call to the underlying
    client and returns its result as is; an omitted ([undefined]) or [null]
    metadata argument is replaced by the device's [{DeviceType,
    ProductCode}], any other value is passed through unchanged. *)
Theorem clientAdapter_defaults_nullish
    (base : direction -> string -> js_value -> cmd_result) (device : Device)
    (dir : direction) (deviceId : string) :
  clientAdapter base (deviceMeta device) dir deviceId JUndefined
    = ([mkCall dir deviceId (JMeta (DeviceType device) (ProductCode device))],
       base dir deviceId (JMeta (DeviceType device) (ProductCode device)))
  /\ clientAdapter base (deviceMeta device) dir deviceId JNull
    = ([mkCall dir deviceId (JMeta (DeviceType device) (ProductCode device))],
       base dir deviceId (JMeta (DeviceType device) (ProductCode device)))
  /\ forall v : js_value, v <> JUndefined -> v <> JNull ->
       clientAdapter base (deviceMeta device) dir deviceId v
         = ([mkCall dir deviceId v], base dir deviceId v).
Proof.
  split; [reflexivity|]. split; [reflexivity|].
  intros v Hu Hn. unfold clientAdapter, nullish_coalesce.
  destruct v; try reflexivity; congruence.
Qed.

(** C8: [getCurrentDoorState] on every state and flag. *)
Theorem getCurrentDoorState_table {time_value : Type} (lt : time_value) (id : string) :
  getCurrentDoorState (mkFSM st_open true lt id) = CDS_OPENING
  /\ getCurrentDoorState (mkFSM st_open false lt id) = CDS_OPEN
  /\ getCurrentDoorState (mkFSM st_closed true lt id) = CDS_CLOSING
  /\ getCurrentDoorState (mkFSM st_closed false lt id) = CDS_CLOSED
  /\ getCurrentDoorState (mkFSM st_stuck true lt id) = CDS_STOPPED
  /\ getCurrentDoorState (mkFSM st_stuck false lt id) = CDS_STOPPED.
Proof. repeat split. Qed.

(** C9: [getTargetDoorState] maps [open] to OPEN and every other state,
    [stuck] included, to CLOSED, whatever the transitioning flag. *)
Theorem getTargetDoorState_table {time_value : Type} (tr : bool) (lt : time_value) (id : string) :
  getTargetDoorState (mkFSM st_open tr lt id) = TargetDoorState_OPEN
  /\ getTargetDoorState (mkFSM st_closed tr lt id) = TargetDoorState_CLOSED
  /\ getTargetDoorState (mkFSM st_stuck tr lt id) = TargetDoorState_CLOSED.
Proof. repeat split. Qed.

(** C10: two configurations that differ only in [treatGateAsGarage] give
    the same discovery actions, and every newly registered accessory gets
    the category GARAGE_DOOR_OPENER. *)
Theorem category_independent_of_treatGateAsGarage
    (generate : string -> string) (cached : list string) (inc t1 t2 : js_value)
    (devices : list Device) (opts : option Platform.Options) :
  Platform.discoverDevices generate cached (Some (Platform.mkOptions inc t1)) devices
    = Platform.discoverDevices generate cached (Some (Platform.mkOptions inc t2)) devices
  /\ Forall (fun a => match a with
                      | Platform.Register _ c _ => c = Platform.GARAGE_DOOR_OPENER
                      | _ => True
                      end)
            (Platform.discoverDevices generate cached opts devices).
Proof.
  assert (Hloop : forall b1 b2 incb,
    Platform.register_loop generate cached incb b1 devices
    = Platform.register_loop generate cached incb b2 devices).
  { intros b1 b2 incb. induction devices as [|dv rest IH]; [reflexivity|].
    simpl. rewrite IH.
    destruct (Platform.register_loop generate cached incb b2 rest).
    unfold Platform.category_of.
    destruct (Platform.isGate dv), b1, b2; reflexivity. }
  split.
  - unfold Platform.discoverDevices. simpl.
    rewrite (Hloop (strict_neq_false t1) (strict_neq_false t2)). reflexivity.
  - unfold Platform.discoverDevices.
    generalize (Platform.read_includeGate opts) (Platform.read_treatGateAsGarage opts).
    intros incb treat.
    assert (Hacts : Forall (fun a => match a with
                      | Platform.Register _ c _ => c = Platform.GARAGE_DOOR_OPENER
                      | _ => True end)
                     (fst (Platform.register_loop generate cached incb treat devices))).
    { clear Hloop. induction devices as [|dv rest IH]; simpl; [constructor|].
      destruct (Platform.register_loop generate cached incb treat rest) as [acts ids].
      simpl in IH.
      destruct (negb (Platform.isGarage dv) && negb (incb && Platform.isGate dv)); simpl;
        [constructor; [exact I|exact IH]|].
      destruct (existsb _ cached); simpl; constructor; try exact IH; try exact I.
      unfold Platform.category_of. destruct (Platform.isGate dv && treat); reflexivity. }
    destruct (Platform.register_loop generate cached incb treat devices) as [acts ids].
    simpl in Hacts. apply Forall_app. split; [exact Hacts|].
    apply Forall_forall. intros a Ha. apply in_map_iff in Ha.
    destruct Ha as [u [<- _]]. exact I.
Qed.

(** ** Concrete runs

    Timestamps are kept as the strings themselves ([getTime := id]). *)

Definition ts_id (s : string) : string := s.

Definition fsm0 (s : fsm_state) : @FSM string := mkFSM s false "2024-01-01" "dev-1".

Definition world0 (s : fsm_state) : @World string :=
  mkWorld (fsm0 s) CDS_CLOSED [] [] (JMeta (Some "NexxGarage") "NXG200").

Definition record_with (st : option Z) : Device :=
  mkDevice "dev-1" "Garage" st "2024-06-01T10:00:00Z" "NXG200" (Some "NexxGarage").

(** A remote client whose [open] / [close] always succeed. *)
Definition client_ok (_ : direction) (_ : string) (_ : js_value) : cmd_result := CmdOk.

(** A remote client whose [open] / [close] always reject with error 7. *)
Definition client_err (_ : direction) (_ : string) (_ : js_value) : cmd_result := CmdErr 7.

Lemma reconcile_skips_when_transitioning_witness :
  isTransitioning (fsm (mkWorld (mkFSM st_closed true "t" "dev-1") CDS_OPENING [] [] JUndefined)) = true
  /\ reconcile_start (mkWorld (mkFSM st_closed true "t" "dev-1") CDS_OPENING [] [] JUndefined)
       = (mkWorld (mkFSM st_closed true "t" "dev-1") CDS_OPENING [] [] JUndefined, false)
  /\ reconcile_firing ts_id (record_with (Some 1)) (mkWorld (mkFSM st_closed true "t" "dev-1") CDS_OPENING [] [] JUndefined)
       = mkWorld (mkFSM st_closed true "t" "dev-1") CDS_OPENING [] [] JUndefined.
Proof.
  split; [reflexivity|].
  apply (reconcile_skips_when_transitioning ts_id (record_with (Some 1))). reflexivity.
Defined.

(** C1 as stated fails: a firing that passed its guard polls; while the poll
    is awaited a request to open starts the command (transitioning becomes
    true); when the poll resolves with a status that is neither Open nor
    Closed, the correction runs on the transitioning machine and forces it
    to [stuck], clearing the flag of the in-flight command. *)
Lemma reconcile_corrects_while_transitioning :
  let w1 := fst (reconcile_start (world0 st_closed)) in
  let w2 := fst (set_target_begin client_ok (JNumber TargetDoorState_OPEN) w1) in
  let w3 := reconcile_resume ts_id (record_with None) w2 in
  snd (reconcile_start (world0 st_closed)) = true
  /\ isTransitioning (fsm w2) = true
  /\ state (fsm w3) = st_stuck
  /\ isTransitioning (fsm w3) = false
  /\ trace w3 = trace w2 ++ [EvReset st_stuck None].
Proof. vm_compute. repeat split. Qed.

Lemma reconcile_and_setup_reset_witness :
  isTransitioning (fsm (world0 st_open)) = false
  /\ reconcile_firing ts_id (record_with (Some 2)) (world0 st_open) =
    (if spec_disagree (state (fsm (world0 st_open))) (DeviceStatus (record_with (Some 2))) then
       mkWorld (mkFSM (spec_reset_target (DeviceStatus (record_with (Some 2)))) false
                  (ts_id (LastOperationTimestamp (record_with (Some 2)))) (fsm_deviceId (fsm (world0 st_open))))
               (current (world0 st_open)) (timers (world0 st_open))
               (trace (world0 st_open) ++ [EvPoll (fsm_deviceId (fsm (world0 st_open)));
                  EvReset (spec_reset_target (DeviceStatus (record_with (Some 2)))) (DeviceStatus (record_with (Some 2)))])
               (meta (world0 st_open))
     else emit (EvPoll (fsm_deviceId (fsm (world0 st_open)))) (world0 st_open))
  /\ constructor_setup ts_id (fsm0 st_closed) CDS_CLOSED (record_with (Some 2)) =
     mkWorld (mkFSM (spec_reset_target (DeviceStatus (record_with (Some 2)))) false
                (ts_id (LastOperationTimestamp (record_with (Some 2)))) (DeviceId (record_with (Some 2))))
             CDS_CLOSED [] [EvReset (spec_reset_target (DeviceStatus (record_with (Some 2)))) (DeviceStatus (record_with (Some 2)))]
             (deviceMeta (record_with (Some 2))).
Proof.
  split; [reflexivity|].
  apply (reconcile_and_setup_reset ts_id). reflexivity.
Defined.

(** C2 as stated fails at the constructor: whatever state the fresh machine
    starts in, with a remote record agreeing with it the setup still runs a
    reset (its log line is emitted and [lastTransition] is overwritten). *)
Lemma setup_resets_without_disagreement :
  spec_disagree st_open (Some 1) = false
  /\ trace (constructor_setup ts_id (fsm0 st_open) CDS_CLOSED (record_with (Some 1)))
       = [EvReset st_open (Some 1)]
  /\ spec_disagree st_closed (Some 2) = false
  /\ trace (constructor_setup ts_id (fsm0 st_closed) CDS_CLOSED (record_with (Some 2)))
       = [EvReset st_closed (Some 2)]
  /\ spec_disagree st_stuck None = false
  /\ trace (constructor_setup ts_id (fsm0 st_stuck) CDS_CLOSED (record_with None))
       = [EvReset st_stuck None]
  /\ lastTransition (fsm (constructor_setup ts_id (fsm0 st_closed) CDS_CLOSED (record_with (Some 2))))
       <> lastTransition (fsm0 st_closed).
Proof. vm_compute. repeat split. discriminate. Qed.

(** C3 as stated fails: with the machine already [open], a request to open
    issues no command (the [can] guard is false: only a warning is logged),
    yet the confirmation timer is scheduled. *)
Lemma confirmation_scheduled_without_command :
  can dir_open (fsm (world0 st_open)) = false
  /\ setTargetDoorState client_ok (JNumber TargetDoorState_OPEN) (world0 st_open)
     = Resolved (mkWorld (fsm0 st_open) CDS_OPENING [CDS_OPEN]
                   [EvSetCurrent CDS_OPENING; EvWarn dir_open]
                   (JMeta (Some "NexxGarage") "NXG200")).
Proof. split; reflexivity. Qed.

Lemma command_failure_absorbed_witness :
  can (request_dir (JNumber TargetDoorState_OPEN)) (fsm (world0 st_closed)) = true
  /\ client_err (request_dir (JNumber TargetDoorState_OPEN)) (fsm_deviceId (fsm (world0 st_closed)))
       (meta (world0 st_closed)) = CmdErr 7
  /\ exists w',
    setTargetDoorState client_err (JNumber TargetDoorState_OPEN) (world0 st_closed) = Resolved w'
    /\ state (fsm w') = st_stuck
    /\ isTransitioning (fsm w') = false
    /\ current w' = CDS_STOPPED
    /\ timers w' = timers (world0 st_closed)
    /\ trace w' = trace (world0 st_closed) ++
         [EvSetCurrent (moving_value (request_dir (JNumber TargetDoorState_OPEN)));
          EvCommand (mkCall (request_dir (JNumber TargetDoorState_OPEN))
                       (fsm_deviceId (fsm (world0 st_closed))) (meta (world0 st_closed)));
          EvError 7;
          EvSetCurrent CDS_STOPPED].
Proof.
  split; [reflexivity|]. split; [reflexivity|].
  apply command_failure_absorbed; reflexivity.
Defined.

Lemma reconcile_idempotent_witness :
  isTransitioning (fsm (world0 st_open)) = false
  /\ fsm (reconcile_firing ts_id (record_with (Some 2)) (reconcile_firing ts_id (record_with (Some 2)) (world0 st_open)))
     = fsm (reconcile_firing ts_id (record_with (Some 2)) (world0 st_open))
  /\ trace (reconcile_firing ts_id (record_with (Some 2)) (reconcile_firing ts_id (record_with (Some 2)) (world0 st_open)))
     = trace (reconcile_firing ts_id (record_with (Some 2)) (world0 st_open))
         ++ [EvPoll (fsm_deviceId (fsm (world0 st_open)))]
  /\ (spec_disagree (state (fsm (world0 st_open))) (DeviceStatus (record_with (Some 2))) = false ->
      fsm (reconcile_firing ts_id (record_with (Some 2)) (world0 st_open)) = fsm (world0 st_open)
      /\ trace (reconcile_firing ts_id (record_with (Some 2)) (world0 st_open))
         = trace (world0 st_open) ++ [EvPoll (fsm_deviceId (fsm (world0 st_open)))]).
Proof.
  split; [reflexivity|].
  apply (reconcile_idempotent ts_id). reflexivity.
Defined.

Lemma clientAdapter_defaults_nullish_witness :
  JString "x" <> JUndefined /\ JString "x" <> JNull
  /\ clientAdapter client_ok (deviceMeta (record_with (Some 1))) dir_open "dev-1" (JString "x")
     = ([mkCall dir_open "dev-1" (JString "x")], client_ok dir_open "dev-1" (JString "x")).
Proof.
  split; [discriminate|]. split; [discriminate|].
  apply (clientAdapter_defaults_nullish client_ok (record_with (Some 1)) dir_open "dev-1");
    discriminate.
Defined.

(** C7 as stated fails: metadata the caller does supply as [null] is not
    passed through: [??] replaces it by the device's default. *)
Lemma clientAdapter_replaces_null :
  clientAdapter client_ok (deviceMeta (record_with (Some 1))) dir_open "dev-1" JNull
  = ([mkCall dir_open "dev-1" (JMeta (Some "NexxGarage") "NXG200")], CmdOk)
  /\ JMeta (Some "NexxGarage") "NXG200" <> JNull.
Proof. split; [reflexivity|discriminate]. Qed.

(** ** Further properties of the accessory and of device discovery *)

Section MoreAccessory.

Context {time_value : Type} (getTime : string -> time_value).

(** The CurrentDoorState the remote status leads to once reconciled. *)
Definition cds_of_status (st : option Z) : CurrentDoorState :=
  if status_is st GarageDoorState_Open then CDS_OPEN
  else if status_is st GarageDoorState_Closed then CDS_CLOSED
  else CDS_STOPPED.

(** [getObstructionDetected] reports an obstruction exactly when
    [getCurrentDoorState] reports STOPPED. *)
Lemma obstruction_iff_stopped (m : @FSM time_value) :
  getObstructionDetected m = true <-> getCurrentDoorState m = CDS_STOPPED.
Proof.
  destruct m as [[| |] [|] lt id]; unfold getObstructionDetected, getCurrentDoorState;
    simpl; split; intro H; try reflexivity; discriminate H.
Qed.

(** Both halves of a reconciliation firing leave the CurrentDoorState
    characteristic, the pending timers and the adapter metadata untouched:
    a correction changes only the machine and the log. *)
Lemma reconcile_keeps_characteristic (d : Device) (w : @World time_value) :
  current (reconcile_resume getTime d w) = current w
  /\ timers (reconcile_resume getTime d w) = timers w
  /\ meta (reconcile_resume getTime d w) = meta w
  /\ current (fst (reconcile_start w)) = current w
  /\ timers (fst (reconcile_start w)) = timers w
  /\ meta (fst (reconcile_start w)) = meta w.
Proof.
  rewrite reconcile_resume_spec.
  destruct (spec_disagree _ _); [rewrite resetDeviceState_spec|];
    unfold reconcile_start; destruct (negb (isTransitioning (fsm w)));
    repeat split.
Qed.

(** After a firing on a machine that is not transitioning, the machine
    agrees with the polled record, is not transitioning, keeps its device
    id, and the getters report the remote status: OPEN, CLOSED, or STOPPED
    with an obstruction for any other or missing status. *)
Lemma reconcile_establishes_agreement (d : Device) (w : @World time_value)
    (H : isTransitioning (fsm w) = false) :
  let w' := reconcile_firing getTime d w in
  spec_disagree (state (fsm w')) (DeviceStatus d) = false
  /\ isTransitioning (fsm w') = false
  /\ fsm_deviceId (fsm w') = fsm_deviceId (fsm w)
  /\ getCurrentDoorState (fsm w') = cds_of_status (DeviceStatus d)
  /\ getObstructionDetected (fsm w')
     = negb (status_is (DeviceStatus d) GarageDoorState_Open
             || status_is (DeviceStatus d) GarageDoorState_Closed).
Proof.
  pose proof (reconcile_firing_idle getTime d w H) as H1.
  simpl. rewrite H1.
  destruct (spec_disagree (state (fsm w)) (DeviceStatus d)) eqn:Hd.
  - simpl. unfold spec_reset_target, cds_of_status, getObstructionDetected,
      getCurrentDoorState, isTransitioning. simpl.
    destruct (status_is (DeviceStatus d) GarageDoorState_Open) eqn:Ho; simpl;
      [rewrite Ho; repeat split|].
    destruct (status_is (DeviceStatus d) GarageDoorState_Closed) eqn:Hc; simpl;
      rewrite ?Ho, ?Hc; repeat split.
  - simpl. split; [exact Hd|]. split; [exact H|]. split; [reflexivity|]. split.
    + unfold isTransitioning in H. unfold getCurrentDoorState, cds_of_status, isTransitioning.
      revert Hd. unfold spec_disagree.
      destruct (state (fsm w)); rewrite ?H;
        destruct (status_is (DeviceStatus d) GarageDoorState_Open) eqn:Ho;
        destruct (status_is (DeviceStatus d) GarageDoorState_Closed) eqn:Hc;
        simpl; intro Hd; try reflexivity; try discriminate Hd.
      exfalso. destruct (DeviceStatus d) as [z|]; [|discriminate Ho].
      simpl in Ho, Hc. apply Z.eqb_eq in Ho, Hc. rewrite Ho in Hc. discriminate Hc.
    + unfold getObstructionDetected. revert Hd. unfold spec_disagree.
      destruct (state (fsm w)); simpl;
        destruct (status_is (DeviceStatus d) GarageDoorState_Open) eqn:Ho;
        destruct (status_is (DeviceStatus d) GarageDoorState_Closed) eqn:Hc;
        simpl; intro Hd; try reflexivity; try discriminate Hd.
Qed.

End MoreAccessory.

Section MoreRequests.

Context {time_value : Type}.

(** When the [can] guard is false, a request issues no command and leaves
    the machine as it is: it writes OPENING / CLOSING, logs the warning and
    schedules the confirmation timer. *)
Lemma request_refused_by_guard
    (base : direction -> string -> js_value -> cmd_result) (value : js_value)
    (w : @World time_value)
    (Hcan : can (request_dir value) (fsm w) = false) :
  setTargetDoorState base value w =
  Resolved (mkWorld (fsm w) (moving_value (request_dir value))
              (timers w ++ [terminal_value (request_dir value)])
              (trace w ++ [EvSetCurrent (moving_value (request_dir value));
                           EvWarn (request_dir value)])
              (meta w)).
Proof.
  unfold setTargetDoorState, set_target_begin. simpl (fsm (set_current _ _)).
  rewrite Hcan. unfold schedule, emit, set_current. simpl.
  rewrite <- app_assoc. reflexivity.
Qed.

(** When the guard holds and the command succeeds, the request resolves
    with the machine transitioning in its previous state, CurrentDoorState at
    OPENING / CLOSING, one call to the client carrying the adapter's device
    metadata, and the confirmation timer scheduled. *)
Lemma request_command_succeeds
    (base : direction -> string -> js_value -> cmd_result) (value : js_value)
    (w : @World time_value)
    (Hcan : can (request_dir value) (fsm w) = true)
    (Hok : base (request_dir value) (fsm_deviceId (fsm w)) (meta w) = CmdOk) :
  setTargetDoorState base value w =
  Resolved (mkWorld (mkFSM (state (fsm w)) true (lastTransition (fsm w)) (fsm_deviceId (fsm w)))
              (moving_value (request_dir value))
              (timers w ++ [terminal_value (request_dir value)])
              (trace w ++ [EvSetCurrent (moving_value (request_dir value));
                           EvCommand (mkCall (request_dir value) (fsm_deviceId (fsm w)) (meta w))])
              (meta w)).
Proof.
  unfold setTargetDoorState, set_target_begin. simpl (fsm (set_current _ _)).
  rewrite Hcan. unfold fsm_command_issue, clientAdapter. simpl. rewrite Hok.
  unfold schedule, with_fsm, emit_calls, set_current. simpl.
  rewrite <- app_assoc. reflexivity.
Qed.

(** Every value other than the number [TargetDoorState.OPEN] (the number
    CLOSED, but also a string, a boolean or [undefined]) is handled as a
    request to close: the request first writes CLOSING, and any command it
    sends is a [close]. *)
Lemma non_open_value_closes
    (base : direction -> string -> js_value -> cmd_result) (value : js_value)
    (w : @World time_value)
    (Hv : value <> JNumber TargetDoorState_OPEN) :
  match setTargetDoorState base value w with
  | Resolved w' =>
      exists rest, trace w' = trace w ++ EvSetCurrent CDS_CLOSING :: rest
      /\ Forall (fun e => match e with EvCommand c => call_dir c = dir_close | _ => True end) rest
  | Rejected _ _ => False
  end.
Proof.
  assert (Hd : request_dir value = dir_close).
  { unfold request_dir, is_open_request. destruct value; try reflexivity.
    destruct (Z.eqb z TargetDoorState_OPEN) eqn:Hz; [|reflexivity].
    apply Z.eqb_eq in Hz. subst. contradiction. }
  unfold setTargetDoorState, set_target_begin. rewrite Hd.
  simpl (fsm (set_current _ _)).
  destruct (can dir_close (fsm w)).
  - unfold fsm_command_issue, clientAdapter. simpl.
    destruct (base dir_close (fsm_deviceId (fsm w)) (meta w)) as [|e]; simpl.
    + eexists. rewrite <- ?app_assoc. split; [reflexivity|].
      repeat constructor.
    + eexists. rewrite <- ?app_assoc. split; [reflexivity|].
      repeat constructor.
  - simpl. eexists. rewrite <- ?app_assoc. split; [reflexivity|]. repeat constructor.
Qed.

End MoreRequests.

Module PlatformFacts.
Import Platform.

(** Whether [discoverDevices] accepts a device: a garage, or a gate with
    [includeGate] on. *)
Definition accepted (includeG : bool) (device : Device) : bool :=
  isGarage device || (includeG && isGate device).

(** What the loop of [discoverDevices] does for one device. *)
Definition action_for (generate : string -> string) (cached : list string)
    (includeG : bool) (device : Device) (a : action) : Prop :=
  match a with
  | Skip d => d = device /\ accepted includeG device = false
  | Restore u d =>
      d = device /\ accepted includeG device = true
      /\ u = generate (DeviceId device) /\ In u cached
  | Register u c d =>
      d = device /\ accepted includeG device = true
      /\ u = generate (DeviceId device) /\ ~ In u cached /\ c = GARAGE_DOOR_OPENER
  | Unregister _ => False
  end.

Lemma existsb_eqb_In (u : string) (l : list string) :
  existsb (String.eqb u) l = true <-> In u l.
Proof.
  rewrite existsb_exists. split.
  - intros [x [Hx He]]. apply String.eqb_eq in He. subst. exact Hx.
  - intro H. exists u. split; [exact H|]. apply String.eqb_refl.
Qed.

Lemma register_loop_spec (generate : string -> string) (cached : list string)
    (includeG treat : bool) (devices : list Device) :
  Forall2 (action_for generate cached includeG) devices
    (fst (register_loop generate cached includeG treat devices))
  /\ snd (register_loop generate cached includeG treat devices)
     = map (fun d => generate (DeviceId d)) (filter (accepted includeG) devices).
Proof.
  induction devices as [|dv rest [IHa IHi]]; [split; [constructor|reflexivity]|].
  simpl. destruct (register_loop generate cached includeG treat rest) as [acts ids].
  simpl in IHa, IHi.
  assert (Hskip : negb (isGarage dv) && negb (includeG && isGate dv)
                  = negb (accepted includeG dv)).
  { unfold accepted. destruct (isGarage dv), (includeG && isGate dv); reflexivity. }
  rewrite Hskip.
  destruct (accepted includeG dv) eqn:Ha; simpl.
  - destruct (existsb (String.eqb (generate (DeviceId dv))) cached) eqn:He; simpl;
      (split; [constructor; [|exact IHa]|rewrite IHi; reflexivity]).
    + repeat split; try assumption. apply existsb_eqb_In. exact He.
    + repeat split; try assumption.
      * intro Hin. apply existsb_eqb_In in Hin. congruence.
      * unfold category_of. destruct (isGate dv && treat); reflexivity.
  - split; [constructor; [split; [reflexivity|exact Ha]|exact IHa]|exact IHi].
Qed.

(** [discoverDevices] takes one action per discovered device, in order:
    it skips exactly the devices that are neither a garage nor (with
    [includeGate] on) a gate; an accepted device whose UUID is cached is
    restored, any other accepted device is registered as a new accessory with
    category GARAGE_DOOR_OPENER.  Then it unregisters exactly the cached
    UUIDs that no accepted device generated. *)
Theorem discoverDevices_spec (generate : string -> string) (cached : list string)
    (opts : option Options) (devices : list Device) :
  exists acts us,
    discoverDevices generate cached opts devices = acts ++ map Unregister us
    /\ Forall2 (action_for generate cached (read_includeGate opts)) devices acts
    /\ forall u, In u us <->
         In u cached
         /\ forall d, In d devices -> accepted (read_includeGate opts) d = true ->
              generate (DeviceId d) <> u.
Proof.
  unfold discoverDevices.
  destruct (register_loop_spec generate cached (read_includeGate opts)
              (read_treatGateAsGarage opts) devices) as [Ha Hi].
  destruct (register_loop generate cached (read_includeGate opts)
              (read_treatGateAsGarage opts) devices) as [acts ids].
  simpl in Ha, Hi. subst ids.
  eexists acts, _. split; [reflexivity|]. split; [exact Ha|].
  intro u. rewrite filter_In. split.
  - intros [Hc Hn]. split; [exact Hc|]. intros d Hd Hacc Heq.
    apply negb_true_iff in Hn. rewrite <- not_true_iff_false in Hn. apply Hn.
    apply existsb_eqb_In. apply in_map_iff. exists d. split; [exact Heq|].
    apply filter_In. split; assumption.
  - intros [Hc Hn]. split; [exact Hc|]. apply negb_true_iff.
    apply not_true_iff_false. intro He. apply existsb_eqb_In in He.
    apply in_map_iff in He. destruct He as [d [Heq Hd]].
    apply filter_In in Hd. destruct Hd as [Hd Hacc].
    exact (Hn d Hd Hacc Heq).
Qed.

End PlatformFacts.

Section SetupFacts.

Context {time_value : Type} (getTime : string -> time_value).

Lemma spec_reset_target_agrees (st : option Z) :
  spec_disagree (spec_reset_target st) st = false.
Proof.
  unfold spec_reset_target.
  destruct (status_is st GarageDoorState_Open) eqn:Ho; [simpl; rewrite Ho; reflexivity|].
  destruct (status_is st GarageDoorState_Closed) eqn:Hc; simpl; rewrite ?Ho, ?Hc; reflexivity.
Qed.

(** Right after the constructor, a firing whose poll returns the same
    record only polls (for the record's device id): the setup already put
    the machine in agreement and not transitioning. *)
Lemma setup_then_firing_only_polls (m0 : @FSM time_value) (cur0 : CurrentDoorState) (d : Device) :
  reconcile_firing getTime d (constructor_setup getTime m0 cur0 d)
  = emit (EvPoll (DeviceId d)) (constructor_setup getTime m0 cur0 d).
Proof.
  rewrite (reconcile_firing_idle getTime d (constructor_setup getTime m0 cur0 d)).
  - rewrite constructor_setup_spec. simpl. rewrite spec_reset_target_agrees. reflexivity.
  - rewrite constructor_setup_spec. reflexivity.
Qed.

End SetupFacts.

Lemma reconcile_establishes_agreement_witness :
  isTransitioning (fsm (world0 st_stuck)) = false
  /\ (let w' := reconcile_firing ts_id (record_with (Some 1)) (world0 st_stuck) in
      spec_disagree (state (fsm w')) (DeviceStatus (record_with (Some 1))) = false
      /\ isTransitioning (fsm w') = false
      /\ fsm_deviceId (fsm w') = fsm_deviceId (fsm (world0 st_stuck))
      /\ getCurrentDoorState (fsm w') = cds_of_status (DeviceStatus (record_with (Some 1)))
      /\ getObstructionDetected (fsm w')
         = negb (status_is (DeviceStatus (record_with (Some 1))) GarageDoorState_Open
                 || status_is (DeviceStatus (record_with (Some 1))) GarageDoorState_Closed)).
Proof.
  split; [reflexivity|].
  apply (reconcile_establishes_agreement ts_id). reflexivity.
Defined.

Lemma request_refused_by_guard_witness :
  can (request_dir (JNumber TargetDoorState_CLOSED)) (fsm (world0 st_closed)) = false
  /\ setTargetDoorState client_ok (JNumber TargetDoorState_CLOSED) (world0 st_closed) =
     Resolved (mkWorld (fsm (world0 st_closed)) (moving_value (request_dir (JNumber TargetDoorState_CLOSED)))
                 (timers (world0 st_closed) ++ [terminal_value (request_dir (JNumber TargetDoorState_CLOSED))])
                 (trace (world0 st_closed) ++
                    [EvSetCurrent (moving_value (request_dir (JNumber TargetDoorState_CLOSED)));
                     EvWarn (request_dir (JNumber TargetDoorState_CLOSED))])
                 (meta (world0 st_closed))).
Proof.
  split; [reflexivity|].
  apply request_refused_by_guard. reflexivity.
Defined.

Lemma request_command_succeeds_witness :
  can (request_dir (JNumber TargetDoorState_OPEN)) (fsm (world0 st_closed)) = true
  /\ client_ok (request_dir (JNumber TargetDoorState_OPEN)) (fsm_deviceId (fsm (world0 st_closed)))
       (meta (world0 st_closed)) = CmdOk
  /\ setTargetDoorState client_ok (JNumber TargetDoorState_OPEN) (world0 st_closed) =
     Resolved (mkWorld (mkFSM (state (fsm (world0 st_closed))) true
                          (lastTransition (fsm (world0 st_closed))) (fsm_deviceId (fsm (world0 st_closed))))
                 (moving_value (request_dir (JNumber TargetDoorState_OPEN)))
                 (timers (world0 st_closed) ++ [terminal_value (request_dir (JNumber TargetDoorState_OPEN))])
                 (trace (world0 st_closed) ++
                    [EvSetCurrent (moving_value (request_dir (JNumber TargetDoorState_OPEN)));
                     EvCommand (mkCall (request_dir (JNumber TargetDoorState_OPEN))
                                  (fsm_deviceId (fsm (world0 st_closed))) (meta (world0 st_closed)))])
                 (meta (world0 st_closed))).
Proof.
  split; [reflexivity|]. split; [reflexivity|].
  apply request_command_succeeds; reflexivity.
Defined.

Lemma non_open_value_closes_witness :
  JString "0" <> JNumber TargetDoorState_OPEN
  /\ match setTargetDoorState client_ok (JString "0") (world0 st_open) with
     | Resolved w' =>
         exists rest, trace w' = trace (world0 st_open) ++ EvSetCurrent CDS_CLOSING :: rest
         /\ Forall (fun e => match e with EvCommand c => call_dir c = dir_close | _ => True end) rest
     | Rejected _ _ => False
     end.
Proof.
  split; [discriminate|].
  apply non_open_value_closes. discriminate.
Defined.
